(** * panhinda: a plug-and-play CMS for React

    A shallow embedding of the code the repository holds:

    - [Editable] (panhinda/src/Editable.tsx), the content-region component;
    - [CMSProvider] (the sample of Readme.md, section "The React Library
      Logic"), the context provider that tracks the Supabase session and
      the edit-mode flag;
    - the row-level-security policies of the [site_content] table
      (Readme.md, section "Security and Log in").

    React elements are modelled as a tree of element records, a state hook
    as a field of the component state, and an event-handler closure as the
    state update it performs when it is called.  Children are passed to a
    component as the markup they render to.

    The content store of the design (cache, optimistic write, rollback) has
    no code in the repository; it is modelled from the specification, and
    every such definition says so. *)

From stdpp Require Import gmap strings list fin_maps.

Open Scope string_scope.

Set Warnings "-register-all".

(** ** The provider's state *)

Section Provider.

(** The [User] object of @supabase/supabase-js.  The library is external
    to the bundle; the code only tests the object for truthiness and
    hands it on, so it stays a parameter. *)
Variable User : Type.

(** [session] as delivered by [getSession] and [onAuthStateChange]; only
    its [user] field is read. *)
Record Session := { session_user : User }.

(** [const [user, setUser] = useState(null);]
    [const [isEditMode, setIsEditMode] = useState(false);] *)
Record CMSState := {
  user : option User;
  isEditMode : bool
}.

Definition initial : CMSState := {| user := None; isEditMode := false |}.

Definition setUser (u : option User) (st : CMSState) : CMSState :=
  {| user := u; isEditMode := isEditMode st |}.

Definition setIsEditMode (b : bool) (st : CMSState) : CMSState :=
  {| user := user st; isEditMode := b |}.

(** [session?.user ?? null] *)
Definition session_user_or_null (session : option Session) : option User :=
  session_user <$> session.

(** The value handed to [CMSContext.Provider]:
    [{ user, isEditMode, setIsEditMode }]. *)
Record CMSContextValue := {
  ctx_user : option User;
  ctx_isEditMode : bool;
  ctx_setIsEditMode : bool -> CMSState -> CMSState
}.

(** ** React nodes *)

Inductive PropVal :=
| PString (s : string)
| PHandler (h : CMSState -> CMSState)
| PContext (v : CMSContextValue).

(** [React.ReactNode]: [null], a boolean, a text, an element or an array
    of nodes.  An element has its type, its props and the list of its
    JSX children. *)
Inductive ReactNode :=
| RNull
| RBool (b : bool)
| RText (s : string)
| RArray (l : list ReactNode)
| RElem (type : string) (props : gmap string PropVal) (kids : list ReactNode).

Definition is_handler (v : PropVal) : bool :=
  match v with PHandler _ => true | _ => false end.

(** An element carries an editing affordance when one of its props is an
    event handler or it is marked [contentEditable]. *)
Definition affords (props : gmap string PropVal) : bool :=
  existsb (fun kv => is_handler kv.2) (map_to_list props)
  || bool_decide (is_Some (props !! "contentEditable")).

Fixpoint interactive (n : ReactNode) : bool :=
  match n with
  | RArray l => existsb interactive l
  | RElem _ props kids => affords props || existsb interactive kids
  | _ => false
  end.

(** Does an element of the given type occur in the tree? *)
Fixpoint occurs (ty : string) (n : ReactNode) : bool :=
  match n with
  | RArray l => existsb (occurs ty) l
  | RElem t _ kids => bool_decide (t = ty) || existsb (occurs ty) kids
  | _ => false
  end.

(** ** Editable.tsx *)

(** [return <div data-cms-id={id}>{children}</div>;] *)
Definition Editable (id : string) (children : ReactNode) : ReactNode :=
  RElem "div" {[ "data-cms-id" := PString id ]} [children].

(** ** Readme.md: CMSProvider *)

Definition AdminLoginButton : ReactNode := RElem "AdminLoginButton" ∅ [].

Definition EditToggle (onToggle : CMSState -> CMSState) : ReactNode :=
  RElem "EditToggle" {[ "onToggle" := PHandler onToggle ]} [].

(** [() => setIsEditMode(!isEditMode)], closed over the [isEditMode] of
    the render that creates it. *)
Definition onToggle (st : CMSState) : CMSState -> CMSState :=
  setIsEditMode (negb (isEditMode st)).

(** [value={{ user, isEditMode, setIsEditMode }}]: what every consumer of
    [CMSContext] receives. *)
Definition context_value (st : CMSState) : CMSContextValue :=
  {| ctx_user := user st;
     ctx_isEditMode := isEditMode st;
     ctx_setIsEditMode := setIsEditMode |}.

(** The [return] of [CMSProvider].  [!user && X] is [X] when [user] is
    [null] and [false] otherwise; [user && X] is [null] when [user] is
    [null] and [X] otherwise. *)
Definition CMSProvider (st : CMSState) (children : ReactNode) : ReactNode :=
  RElem "CMSContext.Provider"
    {[ "value" := PContext (context_value st) ]}
    [ children;
      match user st with None => AdminLoginButton | Some _ => RBool false end;
      match user st with None => RNull | Some _ => EditToggle (onToggle st) end ].

(** The JSX children of an element. *)
Definition kids_of (n : ReactNode) : list ReactNode :=
  match n with RElem _ _ kids => kids | _ => [] end.

(** The handler a node offers under the prop [name], when the node is an
    element of type [ty]. *)
Definition handler_of (ty name : string) (n : ReactNode)
  : option (CMSState -> CMSState) :=
  match n with
  | RElem t props _ =>
      if bool_decide (t = ty) then
        match props !! name with
        | Some (PHandler h) => Some h
        | _ => None
        end
      else None
  | _ => None
  end.

(** The three positions of the provider's output. *)
Definition hosted (tree : ReactNode) : option ReactNode := kids_of tree !! 0%nat.
Definition login_slot (tree : ReactNode) : option ReactNode := kids_of tree !! 1%nat.
Definition toggle_slot (tree : ReactNode) : option ReactNode := kids_of tree !! 2%nat.

(** ** The provider as a transition system *)

(** What can happen to a mounted provider: the promise of [getSession]
    resolves, [onAuthStateChange] delivers a notification, the viewer
    activates the [EditToggle] of the current render, or a component
    below the provider calls the [setIsEditMode] it received through
    [CMSContext]. *)
Inductive Event :=
| SessionResolved (session : option Session)
| AuthStateChange (event : string) (session : option Session)
| ClickEditToggle
| ConsumerSetIsEditMode (b : bool).

Definition step (children : ReactNode) (st : CMSState) (ev : Event) : CMSState :=
  match ev with
  | SessionResolved session => setUser (session_user_or_null session) st
  | AuthStateChange _event session => setUser (session_user_or_null session) st
  | ClickEditToggle =>
      match toggle_slot (CMSProvider st children) ≫= handler_of "EditToggle" "onToggle" with
      | Some h => h st
      | None => st
      end
  | ConsumerSetIsEditMode b => ctx_setIsEditMode (context_value st) b st
  end.

(** The state after a run, and every state observed along it. *)
Definition exec (children : ReactNode) : CMSState -> list Event -> CMSState :=
  foldl (step children).

Fixpoint trace (children : ReactNode) (st : CMSState) (evs : list Event)
  : list CMSState :=
  match evs with
  | [] => [st]
  | ev :: evs' => st :: trace children (step children st ev) evs'
  end.

(** [EditModeFlag ⇒ Identity present]. *)
Definition EditModeInvariant (st : CMSState) : Prop :=
  isEditMode st = true -> is_Some (user st).

(** A login or logout notification: a session, or none. *)
Definition notification (session : option Session) : Event :=
  AuthStateChange (match session with Some _ => "SIGNED_IN" | None => "SIGNED_OUT" end) session.

End Provider.

Arguments session_user {User} _.
Arguments Build_Session {User} _.
Arguments user {User} _.
Arguments isEditMode {User} _.
Arguments Build_CMSState {User} _ _.
Arguments initial {User}.
Arguments setUser {User} _ _.
Arguments setIsEditMode {User} _ _.
Arguments session_user_or_null {User} _.
Arguments ctx_user {User} _.
Arguments ctx_isEditMode {User} _.
Arguments ctx_setIsEditMode {User} _ _ _.
Arguments PString {User} _.
Arguments PHandler {User} _.
Arguments PContext {User} _.
Arguments RNull {User}.
Arguments RBool {User} _.
Arguments RText {User} _.
Arguments RArray {User} _.
Arguments RElem {User} _ _ _.
Arguments is_handler {User} _.
Arguments affords {User} _.
Arguments interactive {User} _.
Arguments occurs {User} _ _.
Arguments Editable {User} _ _.
Arguments AdminLoginButton {User}.
Arguments EditToggle {User} _.
Arguments onToggle {User} _ _.
Arguments context_value {User} _.
Arguments CMSProvider {User} _ _.
Arguments kids_of {User} _.
Arguments handler_of {User} _ _ _.
Arguments hosted {User} _.
Arguments login_slot {User} _.
Arguments toggle_slot {User} _.
Arguments SessionResolved {User} _.
Arguments AuthStateChange {User} _ _.
Arguments ClickEditToggle {User}.
Arguments ConsumerSetIsEditMode {User} _.
Arguments step {User} _ _ _.
Arguments exec {User} _ _ _.
Arguments trace {User} _ _ _.
Arguments EditModeInvariant {User} _.
Arguments notification {User} _.

(** ** The content store *)

Section ContentStore.

(** The content held for a region ("arbitrary structured content"). *)
Variable Value : Type.

(** Modelled from the spec: the repository has no ContentStore; this is the
    ContentRecord of the data model,
    [{ id: string, value: arbitrary structured content, lastUpdated: timestamp }]. *)
Record ContentRecord := {
  rec_id : string;
  value : Value;
  lastUpdated : N
}.

(** Modelled from the spec: the mode the EditModeController exposes
    ([viewing | editing]); the repository has no such controller. *)
Inductive Mode := viewing | editing.

(** Modelled from the spec: the error taxonomy of its section 7, which the
    repository does not declare. *)
Inductive Condition :=
| AuthQueryFailed
| ToggleDenied
| SaveDenied
| SaveNetworkFailure
| FetchFailure.

(** Modelled from the spec: the two conditions of the taxonomy that stand
    for a failed save (both come with a cache rollback). *)
Definition save_failed (c : Condition) : bool :=
  match c with SaveDenied | SaveNetworkFailure => true | _ => false end.

(** Modelled from the spec: why the persistence collaborator turns a write
    down: the server-side rule refuses it, or the request does not get
    through. *)
Inductive Rejection := Refused | NetworkDown.

(** Modelled from the spec: the condition surfaced for a rejection. *)
Definition surfaced (why : Rejection) : Condition :=
  match why with Refused => SaveDenied | NetworkDown => SaveNetworkFailure end.

(** Modelled from the spec: the pending-write marker of the design notes
    ("a value plus a pending-write marker"): the id written and the cache
    entry it replaced. *)
Record PendingWrite := {
  pw_id : string;
  pw_prior : option ContentRecord
}.

(** Modelled from the spec: the ContentStore cache, [id → ContentRecord],
    with the persistence requests in flight, numbered in the order they
    were issued. *)
Record ContentStore := {
  cache : gmap string ContentRecord;
  pending : gmap nat PendingWrite;
  issued : nat
}.

(** Modelled from the spec: the store before anything is fetched or
    written (the repository has no store). *)
Definition empty_store : ContentStore :=
  {| cache := ∅; pending := ∅; issued := 0 |}.

(** Modelled from the spec: "[get(id)] returns the cached
    ContentRecord.value or a caller-supplied fallback if absent". *)
Definition get (s : ContentStore) (id : string) (fallback : Value) : Value :=
  match cache s !! id with
  | Some r => value r
  | None => fallback
  end.

(** Modelled from the spec: "[set(id, value)] is permitted only when
    EditModeController is [editing]; otherwise fails with a
    permission-denied condition.  On [set], the local cache is updated
    immediately (optimistic write) and a persistence request is issued".
    The result is the denial, or the number of the request issued. *)
Definition set (mode : Mode) (now : N) (id : string) (v : Value) (s : ContentStore)
  : ContentStore * (Condition + nat) :=
  match mode with
  | editing =>
      ({| cache := <[id := {| rec_id := id; value := v; lastUpdated := now |}]> (cache s);
          pending := <[issued s := {| pw_id := id; pw_prior := cache s !! id |}]> (pending s);
          issued := S (issued s) |},
       inr (issued s))
  | viewing => (s, inl SaveDenied)
  end.

(** Modelled from the spec: the remote confirmation of a request: the
    optimistic value stays and the marker goes. *)
Definition confirm (t : nat) (s : ContentStore) : ContentStore :=
  {| cache := cache s; pending := delete t (pending s); issued := issued s |}.

(** Modelled from the spec: "the cache entry is rolled back to its prior
    value": the prior record is put back, or the entry removed when the
    write had created it. *)
Definition rollback (pw : PendingWrite) (c : gmap string ContentRecord)
  : gmap string ContentRecord :=
  match pw_prior pw with
  | Some r => <[pw_id pw := r]> c
  | None => delete (pw_id pw) c
  end.

(** Modelled from the spec: "on remote rejection, the cache entry is rolled
    back to its prior value and a save-failed condition is surfaced to the
    caller".  A rejection of a request that is not in flight does nothing. *)
Definition reject (t : nat) (why : Rejection) (s : ContentStore)
  : ContentStore * option Condition :=
  match pending s !! t with
  | Some pw =>
      ({| cache := rollback pw (cache s);
          pending := delete t (pending s);
          issued := issued s |},
       Some (surfaced why))
  | None => (s, None)
  end.

(** Modelled from the spec: what may happen to the store between a write
    and its rejection: further writes, and the resolution of requests. *)
Inductive StoreOp :=
| OpSet (mode : Mode) (now : N) (id : string) (v : Value)
| OpConfirm (t : nat)
| OpReject (t : nat) (why : Rejection).

(** Modelled from the spec: the effect of one such operation on the store
    (the repository has no store); a denied [set] and the rejection of an
    unknown request leave it as it is. *)
Definition apply_op (s : ContentStore) (op : StoreOp) : ContentStore :=
  match op with
  | OpSet mode now id v => (set mode now id v s).1
  | OpConfirm t => confirm t s
  | OpReject t why => (reject t why s).1
  end.

(** Modelled from the spec: operations applied in the order received
    (single-threaded event loop, section 5). *)
Definition run_ops : ContentStore -> list StoreOp -> ContentStore :=
  foldl apply_op.

(** Modelled from the spec: the operation is not the remote answer
    (confirmation or rejection) to request [t]. *)
Definition spares (t : nat) (op : StoreOp) : bool :=
  match op with
  | OpSet _ _ _ _ => true
  | OpConfirm t' => negb (Nat.eqb t t')
  | OpReject t' _ => negb (Nat.eqb t t')
  end.

End ContentStore.

Arguments rec_id {Value} _.
Arguments value {Value} _.
Arguments lastUpdated {Value} _.
Arguments Build_ContentRecord {Value} _ _ _.
Arguments pw_id {Value} _.
Arguments pw_prior {Value} _.
Arguments cache {Value} _.
Arguments pending {Value} _.
Arguments issued {Value} _.
Arguments Build_ContentStore {Value} _ _ _.
Arguments empty_store {Value}.
Arguments get {Value} _ _ _.
Arguments set {Value} _ _ _ _ _.
Arguments confirm {Value} _ _.
Arguments rollback {Value} _ _.
Arguments reject {Value} _ _ _.
Arguments OpSet {Value} _ _ _ _.
Arguments OpConfirm {Value} _.
Arguments OpReject {Value} _ _.
Arguments apply_op {Value} _ _.
Arguments run_ops {Value} _ _.
Arguments spares {Value} _ _.

(** ** Readme.md: the table and its row-level-security policies

    The three SQL statements of the section "Security and Log in", with
    PostgreSQL's reading of them for a client role that is bound by
    row-level security (neither the table's owner nor a role that bypasses
    it) and holds the table privileges: policies are permissive, an
    existing row out of reach of a statement is skipped silently, a new
    row that fails the check raises, and without an applicable policy the
    answer is no. *)

Section RowLevelSecurity.

(** The [jsonb] held in the [content] column. *)
Variable Json : Type.

(** "A simple table called [site_content] with columns: [id] (text,
    primary key), [content] (jsonb), and [last_updated]." *)
Record Row := {
  row_id : string;
  content : Json;
  last_updated : N
}.

Inductive Command := SELECT | INSERT | UPDATE | DELETE.

Definition Command_eqb (a b : Command) : bool :=
  match a, b with
  | SELECT, SELECT | INSERT, INSERT | UPDATE, UPDATE | DELETE, DELETE => true
  | _, _ => false
  end.

(** [CREATE POLICY name ON site_content FOR cmd TO roles USING (e)
    [WITH CHECK (e')]]. *)
Record Policy := {
  pol_name : string;
  pol_for : Command;
  pol_to : list string;
  pol_using : Row -> bool;
  pol_with_check : option (Row -> bool)
}.

(** [CREATE POLICY "Public Read Access" ON site_content FOR SELECT
    TO anon, authenticated USING (true);] *)
Definition public_read : Policy :=
  {| pol_name := "Public Read Access";
     pol_for := SELECT;
     pol_to := ["anon"; "authenticated"];
     pol_using := fun _ => true;
     pol_with_check := None |}.

(** [CREATE POLICY "Admin Update Access" ON site_content FOR UPDATE
    TO authenticated USING (true) WITH CHECK (true);] *)
Definition admin_update : Policy :=
  {| pol_name := "Admin Update Access";
     pol_for := UPDATE;
     pol_to := ["authenticated"];
     pol_using := fun _ => true;
     pol_with_check := Some (fun _ => true) |}.

(** What the three statements leave on the table:
    [ALTER TABLE site_content ENABLE ROW LEVEL SECURITY] and the two
    policies. *)
Record Security := {
  rls : bool;
  pols : list Policy
}.

Definition site_content_security : Security :=
  {| rls := true; pols := [public_read; admin_update] |}.

(** A policy applies to a command run under a role when it is declared
    for that command and names the role. *)
Definition applies (p : Policy) (role : string) (cmd : Command) : bool :=
  Command_eqb (pol_for p) cmd && bool_decide (role ∈ pol_to p).

(** The policies are permissive: an existing row is within reach of a
    command when the [USING] of some applicable policy accepts it.  With
    row-level security on and no applicable policy nothing is (default
    deny).  [role] ranges over the roles row-level security binds: the
    table's owner ([ENABLE], not [FORCE]) and roles with [BYPASSRLS] are
    exempt from the policies and have no case here. *)
Definition using_ok (sec : Security) (role : string) (cmd : Command) (r : Row) : bool :=
  negb (rls sec)
  || existsb (fun p => applies p role cmd && pol_using p r) (pols sec).

(** A new row is admitted when the [WITH CHECK] of some applicable policy
    accepts it ([USING] stands in where no [WITH CHECK] is given).  As
    for [using_ok], [role] is a role the policies bind. *)
Definition check_ok (sec : Security) (role : string) (cmd : Command) (r : Row) : bool :=
  negb (rls sec)
  || existsb (fun p => applies p role cmd
                       && default (pol_using p) (pol_with_check p) r) (pols sec).

Inductive SqlError := RlsViolation | UniqueViolation.

(** [SELECT * FROM site_content WHERE p]: rows out of reach are left out
    silently. *)
Definition select (sec : Security) (role : string) (p : Row -> bool) (rows : list Row)
  : list Row :=
  List.filter (fun r => using_ok sec role SELECT r && p r) rows.

(** The rows a statement with a [WHERE] acts on: those it can read and its
    own policies reach; the others are skipped silently. *)
Definition targets (sec : Security) (role : string) (cmd : Command)
    (p : Row -> bool) (r : Row) : bool :=
  p r && using_ok sec role SELECT r && using_ok sec role cmd r.

(** [UPDATE site_content SET f WHERE p]: a new row that fails the check
    aborts the statement, and so does a clash on the primary key.  A
    table is a bag of rows: the order of the list carries no meaning
    (PostgreSQL does not keep a rewritten row at its place), and what is
    stated of the result is stated up to that order.  The key is checked
    on the finished table. *)
Definition update (sec : Security) (role : string) (p : Row -> bool)
    (f : Row -> Row) (rows : list Row) : SqlError + list Row :=
  let rows' := (fun r => if targets sec role UPDATE p r then f r else r) <$> rows in
  if forallb (fun r => negb (targets sec role UPDATE p r)
                       || check_ok sec role UPDATE (f r)) rows
  then if bool_decide (NoDup (row_id <$> rows')) then inr rows' else inl UniqueViolation
  else inl RlsViolation.

(** [INSERT INTO site_content VALUES r]. *)
Definition insert_row (sec : Security) (role : string) (r : Row) (rows : list Row)
  : SqlError + list Row :=
  if check_ok sec role INSERT r
  then if bool_decide (row_id r ∈ (row_id <$> rows))
       then inl UniqueViolation else inr (rows ++ [r])%list
  else inl RlsViolation.

(** [DELETE FROM site_content WHERE p]. *)
Definition delete_rows (sec : Security) (role : string) (p : Row -> bool)
    (rows : list Row) : SqlError + list Row :=
  inr (List.filter (fun r => negb (targets sec role DELETE p r)) rows).

Inductive Statement :=
| Insert (r : Row)
| Update (p : Row -> bool) (f : Row -> Row)
| Delete (p : Row -> bool).

Definition execute (sec : Security) (role : string) (stmt : Statement)
    (rows : list Row) : SqlError + list Row :=
  match stmt with
  | Insert r => insert_row sec role r rows
  | Update p f => update sec role p f rows
  | Delete p => delete_rows sec role p rows
  end.

(** The table after a statement: a statement that raises changes nothing. *)
Definition table_after (sec : Security) (rows : list Row)
    (req : string * Statement) : list Row :=
  match execute sec req.1 req.2 rows with
  | inr rows' => rows'
  | inl _ => rows
  end.

(** The table after the requests of any number of clients, each run under
    its role, in the order they arrive. *)
Definition serve (sec : Security) : list Row -> list (string * Statement) -> list Row :=
  foldl (table_after sec).

(** [SET content = c, last_updated = now]. *)
Definition with_content (c : Json) (now : N) (r : Row) : Row :=
  {| row_id := row_id r; content := c; last_updated := now |}.

(** [WHERE id = k]. *)
Definition has_id (k : string) (r : Row) : bool := bool_decide (row_id r = k).

End RowLevelSecurity.

Arguments row_id {Json} _.
Arguments content {Json} _.
Arguments last_updated {Json} _.
Arguments Build_Row {Json} _ _ _.
Arguments pol_name {Json} _.
Arguments pol_for {Json} _.
Arguments pol_to {Json} _.
Arguments pol_using {Json} _ _.
Arguments pol_with_check {Json} _.
Arguments public_read {Json}.
Arguments admin_update {Json}.
Arguments rls {Json} _.
Arguments pols {Json} _.
Arguments Build_Security {Json} _ _.
Arguments site_content_security {Json}.
Arguments applies {Json} _ _ _.
Arguments using_ok {Json} _ _ _ _.
Arguments check_ok {Json} _ _ _ _.
Arguments select {Json} _ _ _ _.
Arguments targets {Json} _ _ _ _ _.
Arguments update {Json} _ _ _ _ _.
Arguments insert_row {Json} _ _ _ _.
Arguments delete_rows {Json} _ _ _ _.
Arguments Insert {Json} _.
Arguments Update {Json} _ _.
Arguments Delete {Json} _.
Arguments execute {Json} _ _ _ _.
Arguments table_after {Json} _ _ _.
Arguments serve {Json} _ _ _.
Arguments with_content {Json} _ _ _.
Arguments has_id {Json} _ _.

(** ** Function components and the hooks they call *)

Section Components.

Variable User : Type.

(** What one render of a function component does besides computing with
    its props: it may ask React, any number of times, for the value of
    [CMSContext] of the nearest provider above it ([useContext]; no value
    when there is no provider), and then returns its markup. *)
Inductive Render (A : Type) :=
| Return (a : A)
| UseContext (k : option (CMSContextValue User) -> Render A).

(** A render under a given surrounding context. *)
Fixpoint render {A : Type} (ambient : option (CMSContextValue User)) (c : Render A) : A :=
  match c with
  | Return _ a => a
  | UseContext _ k => render ambient (k ambient)
  end.

(** The number of hook calls the render makes. *)
Fixpoint hook_calls {A : Type} (ambient : option (CMSContextValue User))
    (c : Render A) : nat :=
  match c with
  | Return _ _ => 0
  | UseContext _ k => Datatypes.S (hook_calls ambient (k ambient))
  end.

(** Editable.tsx as a function component: the body ([// Your logic here])
    calls no hook before it returns the [div]. *)
Definition Editable_component (id : string) (children : ReactNode User)
  : Render (ReactNode User) :=
  Return _ (Editable id children).

End Components.

Arguments Return {User A} _.
Arguments UseContext {User A} _.
Arguments render {User A} _ _.
Arguments hook_calls {User A} _ _.
Arguments Editable_component {User} _ _.


(** ** Sample data *)

(** The session of the site's administrator. *)
Definition admin_session : Session string := {| session_user := "admin" |}.

(** The region of the Readme: [<Editable id="home-title"><h1>My Static
    Title</h1></Editable>]. *)
Definition static_title : ReactNode string :=
  RElem "h1" ∅ [RText "My Static Title"].



(** A [site_content] table with the two regions of the Readme. *)
Definition site_rows : list (Row string) :=
  [ {| row_id := "home-title"; content := "My Static Title"; last_updated := 1%N |};
    {| row_id := "hero-title"; content := "Welcome to my site"; last_updated := 1%N |} ].

(** Only authentication events: the session query and the notifications. *)
Definition is_auth {User : Type} (ev : Event User) : bool :=
  match ev with
  | SessionResolved _ | AuthStateChange _ _ => true
  | ClickEditToggle | ConsumerSetIsEditMode _ => false
  end.

(** The events of the provider itself: everything but a call of the setter
    by a component below it. *)
Definition provider_event {User : Type} (ev : Event User) : bool :=
  match ev with
  | ConsumerSetIsEditMode _ => false
  | _ => true
  end.

(** An authentication event that carries no session: [setUser(null)]. *)
Definition clears_user {User : Type} (ev : Event User) : bool :=
  match ev with
  | SessionResolved None | AuthStateChange _ None => true
  | _ => false
  end.

(** Does the run deliver an event without a session while [isEditMode] is
    set? *)
Fixpoint logout_in_edit_mode {User : Type} (children : ReactNode User)
    (st : CMSState User) (evs : list (Event User)) : bool :=
  match evs with
  | [] => false
  | ev :: evs' =>
      (clears_user ev && isEditMode st)
      || logout_in_edit_mode children (step children st ev) evs'
  end.

(** * Properties of [Editable] *)

Section EditableFacts.

Context {User : Type}.
Implicit Types (st : CMSState User) (children : ReactNode User) (id : string).

Lemma affords_data_attribute id :
  affords (User := User) {[ "data-cms-id" := PString id ]} = false.
Proof.
  unfold affords. rewrite map_to_list_singleton. simpl.
  rewrite lookup_singleton_ne by done.
  apply bool_decide_eq_false. by intros [? ?].
Qed.

Lemma hosted_CMSProvider st children :
  hosted (CMSProvider st children) = Some children.
Proof. reflexivity. Qed.

(** C9: for every id and every children value, [Editable] produces one
    element, a [div], whose only prop is [data-cms-id] with the given id
    as its value, and whose content is the supplied children, unchanged. *)
Theorem Editable_wraps_with_id id children :
  exists props,
    Editable id children = RElem "div" props [children]
    /\ props !! "data-cms-id" = Some (PString id)
    /\ dom props = {[ "data-cms-id" ]}
    /\ kids_of (Editable id children) = [children].
Proof.
  exists {[ "data-cms-id" := PString id ]}.
  split; [reflexivity|]. split; [apply lookup_singleton_eq|].
  split; [apply dom_singleton_L | reflexivity].
Qed.

(** Reading the context can change what a component renders: a render is
    not independent of its surroundings by its type. *)
Lemma render_can_depend_on_context :
  exists (E : string -> ReactNode User -> Render User (ReactNode User)),
  forall id children v,
    render None (E id children) <> render (Some v) (E id children).
Proof.
  exists (fun _ _ => UseContext (fun ambient =>
            Return (match ambient with Some _ => RBool true | None => RNull end))).
  intros id children v. cbn. discriminate.
Qed.

(** C10: the markup of a content region is a function of the props [id]
    and [children] alone: the component's render calls no hook, so two
    renders with equal props give the same markup under any two
    surrounding contexts (no provider, or a provider in any state: whoever
    is logged in, whatever the edit-mode flag), also as hosted by those
    providers. *)
Theorem Editable_depends_on_props_only
    (ambient1 ambient2 : option (CMSContextValue User))
    st1 st2 id1 id2 children1 children2 :
  id1 = id2 -> children1 = children2 ->
  render ambient1 (Editable_component id1 children1)
    = render ambient2 (Editable_component id2 children2)
  /\ hook_calls ambient1 (Editable_component id1 children1) = 0
  /\ hosted (CMSProvider st1
               (render (Some (context_value st1)) (Editable_component id1 children1)))
     = hosted (CMSProvider st2
               (render (Some (context_value st2)) (Editable_component id2 children2))).
Proof.
  intros -> ->. unfold Editable_component. cbn [render hook_calls].
  split; [reflexivity|]. split; [reflexivity|].
  by rewrite !hosted_CMSProvider.
Qed.

(** C2: when edit mode is off, and whenever nobody is logged in, the
    region shown inside the provider is the markup the page shows in the
    provider's initial (anonymous, viewing) state; the wrapper carries no
    event handler and no [contentEditable], so the region is interactive
    only where the host's own children are; and for an anonymous viewer
    the provider adds no [EditToggle] to the tree. *)
Theorem Editable_plain_when_not_editing st id children :
  isEditMode st = false \/ user st = None ->
  hosted (CMSProvider st (Editable id children))
    = hosted (CMSProvider initial (Editable id children))
  /\ interactive (Editable id children) = interactive children
  /\ (user st = None ->
      occurs "EditToggle" (CMSProvider st (Editable id children))
        = occurs "EditToggle" children
      /\ toggle_slot (CMSProvider st (Editable id children)) = Some RNull).
Proof.
  intros _. split; [by rewrite !hosted_CMSProvider|]. split.
  - cbn [Editable interactive existsb]. rewrite affords_data_attribute.
    by rewrite orb_false_r.
  - intros Hu. unfold CMSProvider. rewrite Hu. split; [|reflexivity].
    cbn [occurs existsb Editable AdminLoginButton].
    rewrite !bool_decide_eq_false_2 by done.
    by rewrite !orb_false_r.
Qed.


End EditableFacts.

(** * Properties of [CMSProvider] *)

Section ProviderFacts.

Context {User : Type}.
Implicit Types (st : CMSState User) (children : ReactNode User) (ev : Event User).

Lemma step_auth_isEditMode children st ev :
  is_auth ev = true -> isEditMode (step children st ev) = isEditMode st.
Proof. by destruct ev. Qed.

(** Without a user the provider offers no toggle, and a click finds
    nothing to call. *)
Lemma toggle_absent children st :
  user st = None ->
  toggle_slot (CMSProvider st children) = Some RNull
  /\ step children st ClickEditToggle = st.
Proof.
  intros Hu. unfold step, toggle_slot, CMSProvider. cbn [kids_of].
  by rewrite Hu.
Qed.

(** With a user the click runs the handler of the current render. *)
Lemma toggle_present children st u :
  user st = Some u ->
  step children st ClickEditToggle = setIsEditMode (negb (isEditMode st)) st.
Proof.
  intros Hu. unfold step, toggle_slot, CMSProvider. cbn [kids_of].
  rewrite Hu. cbn [lookup list_lookup mbind option_bind EditToggle handler_of].
  rewrite bool_decide_eq_true_2 by done.
  by rewrite lookup_singleton_eq.
Qed.

Lemma trace_auth_viewing children evs : forall st,
  isEditMode st = false ->
  forallb is_auth evs = true ->
  Forall (fun st' => isEditMode st' = false) (trace children st evs).
Proof.
  induction evs as [|ev evs IH]; intros st Hst Hevs; cbn [trace].
  - by constructor.
  - cbn [forallb] in Hevs. apply andb_true_iff in Hevs as [Hev Hevs].
    constructor; [done|]. apply IH; [|done].
    by rewrite step_auth_isEditMode.
Qed.

Lemma trace_head children evs st (P : CMSState User -> Prop) :
  Forall P (trace children st evs) -> P st.
Proof. destruct evs; cbn [trace]; intros H; by apply Forall_cons in H as [? _]. Qed.

Lemma step_keeps_invariant children st ev :
  provider_event ev = true ->
  clears_user ev && isEditMode st = false ->
  EditModeInvariant st -> EditModeInvariant (step children st ev).
Proof.
  unfold EditModeInvariant. intros Hev Hout Hinv.
  destruct ev as [[session|]|event [session|]| |b]; try discriminate Hev.
  - intros _. cbn. by eexists.
  - cbn [clears_user andb] in Hout. cbn. by rewrite Hout.
  - intros _. cbn. by eexists.
  - cbn [clears_user andb] in Hout. cbn. by rewrite Hout.
  - destruct (user st) as [u|] eqn:Hu.
    + rewrite (toggle_present children st u Hu). cbn. intros _. rewrite Hu. by eexists.
    + destruct (toggle_absent children st Hu) as [_ ->]. by rewrite Hu.
Qed.

Lemma step_breaks_invariant children st ev :
  clears_user ev && isEditMode st = true ->
  ~ EditModeInvariant (step children st ev).
Proof.
  intros Hout Hinv. apply andb_true_iff in Hout as [Hev Hon].
  unfold EditModeInvariant in Hinv.
  destruct ev as [[session|]|event [session|]| |b]; try discriminate Hev;
    cbn in Hinv; destruct (Hinv Hon) as [u Hu]; discriminate Hu.
Qed.

Lemma invariant_iff_no_logout children evs : forall st,
  forallb provider_event evs = true ->
  EditModeInvariant st ->
  Forall EditModeInvariant (trace children st evs)
  <-> logout_in_edit_mode children st evs = false.
Proof.
  induction evs as [|ev evs IH]; intros st Hevs Hinv.
  - cbn. split; [done|]. intros _. by constructor.
  - cbn [forallb] in Hevs. apply andb_true_iff in Hevs as [Hev Hevs].
    cbn [trace logout_in_edit_mode].
    destruct (clears_user ev && isEditMode st) eqn:Hout; cbn [orb].
    + split; [|done]. intros H. apply Forall_cons in H as [_ H].
      apply trace_head in H. by apply step_breaks_invariant in H.
    + rewrite <- IH by (by try apply step_keeps_invariant).
      split.
      * intros H. by apply Forall_cons in H as [_ H].
      * intros H. by constructor.
Qed.

Lemma no_logout_in_viewing children evs : forall st,
  isEditMode st = false -> forallb is_auth evs = true ->
  logout_in_edit_mode children st evs = false.
Proof.
  induction evs as [|ev evs IH]; intros st Hoff Hevs; [done|].
  cbn [forallb] in Hevs. apply andb_true_iff in Hevs as [Hev Hevs].
  cbn [logout_in_edit_mode]. rewrite Hoff, andb_false_r. cbn [orb].
  apply IH; [|done]. by rewrite step_auth_isEditMode.
Qed.

Lemma auth_is_provider_event evs :
  forallb (is_auth (User := User)) evs = true -> forallb provider_event evs = true.
Proof.
  induction evs as [|ev evs IH]; [done|]. cbn [forallb].
  intros H. apply andb_true_iff in H as [Hev Hevs].
  rewrite IH by done. by destruct ev.
Qed.

(** C1, as the code has it: along every run of the provider's own events
    (session results, notifications, clicks on its toggle) from the
    initial state, [EditModeFlag ⇒ Identity present] holds at every
    observed state if and only if no event without a session (a logout)
    arrives while [isEditMode] is set; it holds in particular along every
    sequence of authentication events alone.  The provider's toggle
    switches the flag on only in a state that has a user; the setter
    handed out through the context sets the flag to whatever it is given
    and never looks at the user. *)
Theorem invariant_until_logout_in_edit_mode children evs :
  forallb provider_event evs = true ->
  (Forall EditModeInvariant (trace children initial evs)
   <-> logout_in_edit_mode children initial evs = false)
  /\ (forallb is_auth evs = true ->
      Forall EditModeInvariant (trace children initial evs))
  /\ (forall st,
        isEditMode st = false ->
        isEditMode (step children st ClickEditToggle) = true ->
        is_Some (user st))
  /\ (forall st b,
        step children st (ConsumerSetIsEditMode b)
        = {| user := user st; isEditMode := b |}).
Proof.
  intros Hevs.
  assert (Hinit : EditModeInvariant (initial (User := User))) by (intros H; discriminate H).
  split; [by apply invariant_iff_no_logout|]. split; [|split].
  - intros Hauth. apply invariant_iff_no_logout; [done..|].
    by apply no_logout_in_viewing.
  - intros st Hoff Hon. destruct (user st) as [u|] eqn:Hu; [by eexists|].
    destruct (toggle_absent children st Hu) as [_ Hstep].
    by rewrite Hstep, Hoff in Hon.
  - reflexivity.
Qed.

(** C4, as the code has it: in every state without a user the provider
    renders the [AdminLoginButton] and no [EditToggle]; a click on the
    toggle therefore reaches no handler, and the state (the mode with it)
    is the same after any number of attempts. *)
Theorem toggle_unavailable_without_user children st n :
  user st = None ->
  login_slot (CMSProvider st children) = Some AdminLoginButton
  /\ toggle_slot (CMSProvider st children) = Some RNull
  /\ (toggle_slot (CMSProvider st children)
        ≫= handler_of "EditToggle" "onToggle") = None
  /\ exec children st (replicate n ClickEditToggle) = st.
Proof.
  intros Hu. destruct (toggle_absent children st Hu) as [Hslot Hstep].
  split; [by unfold login_slot, CMSProvider; cbn [kids_of]; rewrite Hu|].
  split; [done|]. split; [by rewrite Hslot|].
  induction n as [|n IH]; [reflexivity|].
  unfold exec in *. cbn [replicate foldl]. by rewrite Hstep.
Qed.

(** C5, as the code has it: a logout notification received in edit mode
    removes the user in that same step and leaves [isEditMode] set; from
    then on the provider renders no [EditToggle], so a click does not
    change the state. *)
Theorem logout_keeps_isEditMode children st event :
  isEditMode st = true ->
  let st' := step children st (AuthStateChange event None) in
  user st' = None
  /\ isEditMode st' = true
  /\ toggle_slot (CMSProvider st' children) = Some RNull
  /\ step children st' ClickEditToggle = st'.
Proof.
  intros Hon st'. subst st'. cbn [step session_user_or_null fmap option_fmap option_map].
  split; [reflexivity|]. split; [done|].
  by apply toggle_absent.
Qed.

End ProviderFacts.

(** * Properties of the content store *)

Section StoreFacts.

Context {Value : Type}.
Implicit Types (s : ContentStore Value) (v fallback : Value) (id : string).

(** C6: [set] succeeds (a request is issued) exactly in the [editing]
    mode; in every other mode it answers [SaveDenied] and the store is the
    one it was given. *)
Theorem set_permitted_only_when_editing mode now id v s :
  ((exists t, (set mode now id v s).2 = inr t) <-> mode = editing)
  /\ (mode <> editing -> set mode now id v s = (s, inl SaveDenied)).
Proof.
  destruct mode; cbn [set snd]; split.
  - split; [by intros [? ?] | done].
  - done.
  - split; [done | by eexists].
  - done.
Qed.

(** C7: in the [editing] mode, right after [set id v] (the request still
    in flight, nothing confirmed) [get id] is [v], whatever the fallback. *)
Theorem get_after_set now id v s fallback :
  let s' := (set editing now id v s).1 in
  (set editing now id v s).2 = inr (issued s)
  /\ is_Some (pending s' !! issued s)
  /\ get s' id fallback = v.
Proof.
  cbn [set fst snd]. split; [reflexivity|]. split.
  - cbn [pending]. rewrite lookup_insert_eq. by eexists.
  - unfold get. cbn [cache]. by rewrite lookup_insert_eq.
Qed.

Lemma apply_op_keeps_pending s op t pw :
  pending s !! t = Some pw -> t < issued s -> spares t op = true ->
  pending (apply_op s op) !! t = Some pw /\ t < issued (apply_op s op).
Proof.
  intros Hpw Hlt Hsp. destruct op as [mode now id v|t'|t' why]; cbn [apply_op].
  - destruct mode; cbn [set fst pending issued]; [done|].
    split; [|lia]. rewrite lookup_insert_ne by lia. done.
  - cbn [spares] in Hsp. apply negb_true_iff, Nat.eqb_neq in Hsp.
    cbn [confirm pending issued]. by rewrite lookup_delete_ne.
  - cbn [spares] in Hsp. apply negb_true_iff, Nat.eqb_neq in Hsp.
    unfold reject. destruct (pending s !! t'); cbn [fst pending issued]; [|done].
    by rewrite lookup_delete_ne.
Qed.

Lemma run_ops_keeps_pending ops : forall s t pw,
  pending s !! t = Some pw -> t < issued s -> forallb (spares t) ops = true ->
  pending (run_ops s ops) !! t = Some pw.
Proof.
  induction ops as [|op ops IH]; intros s t pw Hpw Hlt Hsp; [done|].
  cbn [forallb] in Hsp. apply andb_true_iff in Hsp as [Hop Hsp].
  destruct (apply_op_keeps_pending s op t pw Hpw Hlt Hop) as [Hpw' Hlt'].
  unfold run_ops. cbn [foldl]. by apply IH.
Qed.

(** C8: when the collaborator rejects the request of [set id v], whatever
    else happened to the store meanwhile short of resolving that request,
    the cache entry of [id] is put back, so that [get id] answers what it
    answered before the write, and a save-failed condition is surfaced. *)
Theorem reject_rolls_back now id v s ops why fallback :
  forallb (spares (issued s)) ops = true ->
  let written := (set editing now id v s).1 in
  let outcome := reject (issued s) why (run_ops written ops) in
  cache outcome.1 !! id = cache s !! id
  /\ get outcome.1 id fallback = get s id fallback
  /\ exists c, outcome.2 = Some c /\ save_failed c = true.
Proof.
  intros Hops written outcome.
  assert (Hpw : pending (run_ops written ops) !! issued s
                = Some {| pw_id := id; pw_prior := cache s !! id |}).
  { apply run_ops_keeps_pending; [|cbn; lia|done].
    subst written. cbn [set fst pending]. by rewrite lookup_insert_eq. }
  assert (Hcache : cache outcome.1 !! id = cache s !! id).
  { subst outcome. unfold reject. rewrite Hpw. cbn [fst cache].
    unfold rollback. cbn [pw_prior pw_id].
    destruct (cache s !! id) as [r|].
    - by rewrite lookup_insert_eq.
    - by rewrite lookup_delete_eq. }
  split; [done|]. split.
  - unfold get. by rewrite Hcache.
  - subst outcome. unfold reject. rewrite Hpw. cbn [snd].
    exists (surfaced why). split; [done|]. by destruct why.
Qed.

End StoreFacts.

(** * The code on concrete inputs *)

(** The two scenarios of the spec, on the store. *)
Example scenario_anonymous :
  get (Value := string) empty_store "home-title" "My Static Title" = "My Static Title"
  /\ set viewing 1%N "home-title" "New Title" empty_store = (empty_store, inl SaveDenied).
Proof. split; reflexivity. Qed.

Example scenario_editing :
  get (set editing 1%N "home-title" "New Title" empty_store).1
      "home-title" "My Static Title" = "New Title".
Proof. vm_compute. reflexivity. Qed.

(** Log in, switch edit mode on, log out: the run every claim about the
    flag is measured against. *)
Example login_toggle_logout :
  trace RNull initial
    [notification (Some admin_session); ClickEditToggle; notification None]
  = [ {| user := None; isEditMode := false |};
      {| user := Some "admin"; isEditMode := false |};
      {| user := Some "admin"; isEditMode := true |};
      {| user := None; isEditMode := true |} ].
Proof. vm_compute. reflexivity. Qed.

(** C1 fails as stated: after a login, a toggle and a logout the provider
    is in edit mode with no user, the logout notification having left
    [isEditMode] as it was; and with nobody logged in at all, a component
    that calls the setter it got from the context sets edit mode on. *)
Lemma invariant_broken_by_logout :
  let st := exec RNull initial
              [notification (Some admin_session); ClickEditToggle; notification None] in
  let st' := exec RNull (initial (User := string)) [ConsumerSetIsEditMode true] in
  st = {| user := None; isEditMode := true |} /\ ~ EditModeInvariant st
  /\ st' = {| user := None; isEditMode := true |} /\ ~ EditModeInvariant st'.
Proof.
  assert (E : exec RNull initial
                [notification (Some admin_session); ClickEditToggle; notification None]
              = {| user := None; isEditMode := true |}) by (vm_compute; reflexivity).
  assert (Hbroken : ~ EditModeInvariant
                      ({| user := None; isEditMode := true |} : CMSState string)).
  { intros H. destruct (H eq_refl) as [u Hu]. discriminate Hu. }
  cbv zeta. rewrite E. split; [reflexivity|]. split; [exact Hbroken|].
  split; [reflexivity | exact Hbroken].
Qed.


(** C4 fails as stated: the toggle handler of the code, and the setter the
    context hands to every consumer, switch edit mode on in a state
    without a user; nothing is denied or reported. *)
Lemma onToggle_unguarded :
  let st : CMSState string := initial in
  user st = None
  /\ isEditMode st = false
  /\ isEditMode (onToggle st st) = true
  /\ (let ctx := context_value st in
      isEditMode (ctx_setIsEditMode ctx (negb (ctx_isEditMode ctx)) st) = true).
Proof. cbv zeta. repeat split. Qed.

(** C5 fails as stated: a logout notification received in edit mode leaves
    the mode at editing. *)
Lemma logout_leaves_edit_mode_on :
  let st : CMSState string := {| user := Some "admin"; isEditMode := true |} in
  step RNull st (notification None) = {| user := None; isEditMode := true |}
  /\ isEditMode (step RNull st (notification None)) <> false.
Proof. cbv zeta. split; [reflexivity | discriminate]. Qed.

(** * The theorems at concrete inputs *)

Lemma Editable_depends_on_props_only_witness :
  let anonymous : CMSState string := initial in
  let editor : CMSState string := {| user := Some "admin"; isEditMode := true |} in
  "home-title" = "home-title"
  /\ static_title = static_title
  /\ render None (Editable_component "home-title" static_title)
     = render (Some (context_value editor)) (Editable_component "home-title" static_title)
  /\ hosted (CMSProvider anonymous
               (render (Some (context_value anonymous))
                  (Editable_component "home-title" static_title)))
     = hosted (CMSProvider editor
               (render (Some (context_value editor))
                  (Editable_component "home-title" static_title))).
Proof.
  cbv zeta. split; [reflexivity|]. split; [reflexivity|].
  destruct (Editable_depends_on_props_only (User := string)
              None (Some (context_value {| user := Some "admin"; isEditMode := true |}))
              initial {| user := Some "admin"; isEditMode := true |}
              "home-title" "home-title" static_title static_title eq_refl eq_refl)
    as (Hrender & _ & Hhosted).
  split; [exact Hrender | exact Hhosted].
Defined.

Lemma Editable_plain_when_not_editing_witness :
  let st : CMSState string := {| user := None; isEditMode := true |} in
  (isEditMode st = false \/ user st = None)
  /\ interactive (Editable "home-title" static_title) = interactive static_title
  /\ toggle_slot (CMSProvider st (Editable "home-title" static_title)) = Some RNull.
Proof.
  cbv zeta. split; [right; reflexivity|].
  destruct (Editable_plain_when_not_editing (User := string)
              {| user := None; isEditMode := true |} "home-title" static_title
              (or_intror eq_refl)) as (_ & Hplain & Hanon).
  split; [exact Hplain|]. exact (proj2 (Hanon eq_refl)).
Defined.


Lemma invariant_until_logout_in_edit_mode_witness :
  let evs : list (Event string) :=
    [SessionResolved None; notification (Some admin_session); ClickEditToggle;
     ClickEditToggle; notification None; ClickEditToggle] in
  forallb provider_event evs = true
  /\ logout_in_edit_mode RNull initial evs = false
  /\ Forall EditModeInvariant (trace RNull initial evs).
Proof.
  cbv zeta. split; [reflexivity|].
  assert (Hno : logout_in_edit_mode RNull (initial (User := string))
                  [SessionResolved None; notification (Some admin_session);
                   ClickEditToggle; ClickEditToggle; notification None;
                   ClickEditToggle] = false) by (vm_compute; reflexivity).
  split; [exact Hno|].
  exact (proj2 (proj1 (invariant_until_logout_in_edit_mode (User := string) RNull
                         [SessionResolved None; notification (Some admin_session);
                          ClickEditToggle; ClickEditToggle; notification None;
                          ClickEditToggle] eq_refl)) Hno).
Defined.

Lemma toggle_unavailable_without_user_witness :
  let st : CMSState string := {| user := None; isEditMode := false |} in
  user st = None
  /\ exec RNull st (replicate 3 ClickEditToggle) = st.
Proof.
  cbv zeta. split; [reflexivity|].
  destruct (toggle_unavailable_without_user (User := string) RNull
              {| user := None; isEditMode := false |} 3 eq_refl)
    as (_ & _ & _ & Hexec).
  exact Hexec.
Defined.

Lemma logout_keeps_isEditMode_witness :
  let st : CMSState string := {| user := Some "admin"; isEditMode := true |} in
  isEditMode st = true
  /\ user (step RNull st (AuthStateChange "SIGNED_OUT" None)) = None
  /\ isEditMode (step RNull st (AuthStateChange "SIGNED_OUT" None)) = true.
Proof.
  cbv zeta. split; [reflexivity|].
  destruct (logout_keeps_isEditMode (User := string) RNull
              {| user := Some "admin"; isEditMode := true |} "SIGNED_OUT" eq_refl)
    as (Huser & Hmode & _).
  split; [exact Huser | exact Hmode].
Defined.

Lemma set_permitted_only_when_editing_witness :
  viewing <> editing
  /\ set viewing 1%N "home-title" "New Title" empty_store = (empty_store, inl SaveDenied).
Proof.
  split; [discriminate|].
  apply (proj2 (set_permitted_only_when_editing (Value := string)
                  viewing 1%N "home-title" "New Title" empty_store)).
  discriminate.
Defined.

Lemma reject_rolls_back_witness :
  let s : ContentStore string :=
    (set editing 1%N "home-title" "Old Title" empty_store).1 in
  let ops : list (StoreOp string) :=
    [OpConfirm 0; OpSet editing 3%N "about" "About us"; OpReject 2 NetworkDown] in
  forallb (spares (issued s)) ops = true
  /\ get (reject (issued s) Refused
            (run_ops (set editing 2%N "home-title" "New Title" s).1 ops)).1
         "home-title" "My Static Title"
     = get s "home-title" "My Static Title".
Proof.
  cbv zeta. split; [reflexivity|].
  destruct (reject_rolls_back (Value := string) 2%N "home-title" "New Title"
              (set editing 1%N "home-title" "Old Title" empty_store).1
              [OpConfirm 0; OpSet editing 3%N "about" "About us"; OpReject 2 NetworkDown]
              Refused "My Static Title" eq_refl) as (_ & Hget & _).
  exact Hget.
Defined.

(** * Further properties of [CMSProvider] *)

Section ProviderRuns.

Context {User : Type}.
Implicit Types (st : CMSState User) (children : ReactNode User) (ev : Event User).

Lemma exec_app children st evs1 evs2 :
  exec children st (evs1 ++ evs2)%list = exec children (exec children st evs1) evs2.
Proof. unfold exec. apply foldl_app. Qed.

Lemma step_click_user children st :
  user (step children st ClickEditToggle) = user st.
Proof.
  destruct (user st) as [u|] eqn:Hu.
  - by rewrite (toggle_present children st u Hu).
  - destruct (toggle_absent children st Hu) as [_ ->]. done.
Qed.

Lemma step_auth_user children st st' ev :
  is_auth ev = true -> user (step children st ev) = user (step children st' ev).
Proof. by destruct ev. Qed.

Lemma clicks_keep_user children evs : forall st,
  forallb (fun ev => negb (is_auth ev)) evs = true ->
  user (exec children st evs) = user st.
Proof.
  induction evs as [|ev evs IH]; intros st Hevs; [done|].
  cbn [forallb] in Hevs. apply andb_true_iff in Hevs as [Hev Hevs].
  unfold exec in *. cbn [foldl]. rewrite IH by done.
  destruct ev; try discriminate Hev; [apply step_click_user | reflexivity].
Qed.

(** X1: the identity after a run is the one the last authentication event
    of the run delivered, whatever came before it and however often the
    toggle was used after it: events are applied in the order received,
    each replaces the user, and a toggle never does. *)
Theorem user_follows_last_auth children st st0 evs1 ev evs2 :
  is_auth ev = true ->
  forallb (fun ev' => negb (is_auth ev')) evs2 = true ->
  user (exec children st (evs1 ++ ev :: evs2)) = user (step children st0 ev).
Proof.
  intros Hev Hevs2. rewrite exec_app.
  change (exec children ?s (ev :: evs2))
    with (exec children (step children s ev) evs2).
  rewrite clicks_keep_user by done. by apply step_auth_user.
Qed.

(** X2: as long as a user is present, [n] uses of the toggle leave the
    user alone and flip [isEditMode] once per use: the flag ends where it
    started when [n] is even and negated when [n] is odd. *)
Theorem toggle_parity children n : forall st,
  is_Some (user st) ->
  exec children st (replicate n ClickEditToggle)
  = {| user := user st; isEditMode := xorb (isEditMode st) (Nat.odd n) |}.
Proof.
  induction n as [|n IH]; intros st [u Hu].
  - destruct st as [u' b]. cbn. by rewrite xorb_false_r.
  - unfold exec in *. cbn [replicate foldl].
    rewrite (toggle_present children st u Hu), IH by (by eexists).
    cbn [setIsEditMode user isEditMode]. f_equal.
    rewrite Nat.odd_succ, <- Nat.negb_odd.
    by destruct (isEditMode st), (Nat.odd n).
Qed.

(** X3: the flag and the identity are independent: given any user that can
    log in, every state of the provider, edit mode without a user
    included, is reached from the initial state in at most three events. *)
Theorem every_state_reachable (u0 : User) children st :
  exists evs, length evs <= 3 /\ exec children initial evs = st.
Proof.
  destruct st as [u [|]].
  - exists [notification (Some {| session_user := u0 |}); ClickEditToggle;
            AuthStateChange "" (Build_Session <$> u)].
    split; [cbn; lia|]. unfold exec. cbn [foldl].
    change (step children initial (notification (Some {| session_user := u0 |})))
      with ({| user := Some u0; isEditMode := false |} : CMSState User).
    rewrite (toggle_present children {| user := Some u0; isEditMode := false |}
               u0 eq_refl).
    by destruct u.
  - exists [AuthStateChange "" (Build_Session <$> u)].
    split; [cbn; lia|]. by destruct u.
Qed.

Lemma affords_empty : affords (User := User) ∅ = false.
Proof. reflexivity. Qed.

Lemma affords_value v : affords (User := User) {[ "value" := PContext v ]} = false.
Proof.
  unfold affords. rewrite map_to_list_singleton. cbn [existsb snd is_handler].
  rewrite lookup_singleton_ne by done.
  apply bool_decide_eq_false. by intros [? ?].
Qed.

Lemma affords_handler name h :
  affords (User := User) {[ name := PHandler h ]} = true.
Proof. unfold affords. by rewrite map_to_list_singleton. Qed.

Lemma interactive_CMSProvider st children :
  interactive (CMSProvider st children)
  = bool_decide (is_Some (user st)) || interactive children.
Proof.
  unfold CMSProvider. cbn [interactive existsb]. rewrite affords_value.
  destruct (user st) as [u|].
  - rewrite bool_decide_eq_true_2 by (by eexists).
    cbn [EditToggle interactive existsb]. rewrite affords_handler.
    by destruct (interactive children).
  - rewrite bool_decide_eq_false_2 by (by intros [? ?]).
    cbn [AdminLoginButton interactive existsb]. rewrite affords_empty.
    by destruct (interactive children).
Qed.

(** X4: the provider's output offers exactly one of its two controls: the
    [EditToggle] occurs in the tree exactly when a user is present and
    the [AdminLoginButton] exactly when none is (for children that
    contain neither), and the tree carries an event handler exactly when
    a user is present or the children carry one. *)
Theorem provider_offers_login_or_toggle st children :
  occurs "AdminLoginButton" children = false ->
  occurs "EditToggle" children = false ->
  occurs "EditToggle" (CMSProvider st children) = bool_decide (is_Some (user st))
  /\ occurs "AdminLoginButton" (CMSProvider st children)
     = negb (bool_decide (is_Some (user st)))
  /\ interactive (CMSProvider st children)
     = bool_decide (is_Some (user st)) || interactive children.
Proof.
  intros Hlogin Htoggle. split; [|split; [|apply interactive_CMSProvider]].
  - unfold CMSProvider. cbn [occurs existsb]. rewrite Htoggle.
    destruct (user st) as [u|]; cbn [occurs existsb EditToggle].
    + rewrite (bool_decide_eq_true_2 (is_Some _)) by (by eexists).
      by rewrite (bool_decide_eq_true_2 ("EditToggle" = "EditToggle")), !orb_true_r.
    + rewrite (bool_decide_eq_false_2 (is_Some _)) by (by intros [? ?]).
      by rewrite (bool_decide_eq_false_2 ("CMSContext.Provider" = "EditToggle")).
  - unfold CMSProvider. cbn [occurs existsb]. rewrite Hlogin.
    destruct (user st) as [u|]; cbn [occurs existsb EditToggle AdminLoginButton].
    + rewrite (bool_decide_eq_true_2 (is_Some _)) by (by eexists).
      rewrite (bool_decide_eq_false_2 ("CMSContext.Provider" = "AdminLoginButton")) by done.
      by rewrite (bool_decide_eq_false_2 ("EditToggle" = "AdminLoginButton")).
    + rewrite (bool_decide_eq_false_2 (is_Some _)) by (by intros [? ?]).
      by rewrite (bool_decide_eq_true_2 ("AdminLoginButton" = "AdminLoginButton")),
        !orb_true_r.
Qed.

End ProviderRuns.

(** * Further properties of [Editable] *)

Section EditablePages.

Context {User : Type}.
Implicit Types (st : CMSState User) (children : ReactNode User) (id : string).

(** X5: the wrapper loses nothing: two regions with the same markup have
    the same id and the same children, so regions with different ids are
    always told apart in the output. *)
Theorem Editable_inj id1 id2 children1 children2 :
  Editable id1 children1 = Editable id2 children2 ->
  id1 = id2 /\ children1 = children2.
Proof.
  unfold Editable. intros H.
  pose proof (f_equal kids_of H) as Hkids.
  pose proof (f_equal (fun n => match n with
                                | RElem _ props _ => props !! "data-cms-id"
                                | _ => None
                                end) H) as Hprops.
  cbv beta iota in Hprops. rewrite !lookup_singleton_eq in Hprops.
  cbn [kids_of] in Hkids.
  split; congruence.
Qed.



End EditablePages.

(** * Properties of the row-level-security policies *)

Section PolicyFacts.

Context {Json : Type}.
Implicit Types (r : Row Json) (rows : list (Row Json)) (role k : string)
  (p : Row Json -> bool) (f : Row Json -> Row Json).

Local Abbreviation Sec := (site_content_security (Json := Json)).

Lemma reach_select role r :
  using_ok Sec role SELECT r = bool_decide (role ∈ ["anon"; "authenticated"]).
Proof.
  unfold using_ok, applies.
  cbn [rls pols site_content_security existsb public_read admin_update
       pol_for pol_to pol_using Command_eqb negb orb andb].
  by destruct (bool_decide _).
Qed.

Lemma reach_update role r :
  using_ok Sec role UPDATE r = bool_decide (role = "authenticated").
Proof.
  unfold using_ok, applies.
  cbn [rls pols site_content_security existsb public_read admin_update
       pol_for pol_to pol_using Command_eqb negb orb andb].
  rewrite (bool_decide_ext _ (role = "authenticated")) by apply list_elem_of_singleton.
  by destruct (bool_decide _).
Qed.

Lemma admit_update role r :
  check_ok Sec role UPDATE r = bool_decide (role = "authenticated").
Proof.
  unfold check_ok, applies.
  cbn [rls pols site_content_security existsb public_read admin_update
       pol_for pol_to pol_using pol_with_check default Command_eqb negb orb andb].
  rewrite (bool_decide_ext _ (role = "authenticated")) by apply list_elem_of_singleton.
  by destruct (bool_decide _).
Qed.

Lemma reach_delete role r : using_ok Sec role DELETE r = false.
Proof. reflexivity. Qed.

Lemma admit_insert role r : check_ok Sec role INSERT r = false.
Proof. reflexivity. Qed.

Lemma targets_update_authenticated p r :
  targets Sec "authenticated" UPDATE p r = p r.
Proof.
  unfold targets. rewrite reach_select, reach_update.
  rewrite !bool_decide_eq_true_2; [by rewrite !andb_true_r | done |].
  apply elem_of_cons. right. by apply list_elem_of_singleton.
Qed.


Lemma targets_delete role p r : targets Sec role DELETE p r = false.
Proof. unfold targets. by rewrite reach_delete, andb_false_r. Qed.

Lemma filter_all {A} (g : A -> bool) (l : list A) :
  (forall x, g x = true) -> List.filter g l = l.
Proof.
  intros Hg. induction l as [|x l IH]; [done|].
  cbn [List.filter]. by rewrite Hg, IH.
Qed.


Lemma fmap_pointwise {A B} (g h : A -> B) (l : list A) :
  (forall x, g x = h x) -> g <$> l = h <$> l.
Proof.
  intros Hgh. induction l as [|x l IH]; [done|].
  cbn [fmap list_fmap]. rewrite Hgh. f_equal. exact IH.
Qed.


Lemma forallb_all {A} (g : A -> bool) (l : list A) :
  (forall x, g x = true) -> forallb g l = true.
Proof.
  intros Hg. induction l as [|x l IH]; [done|].
  cbn [forallb]. by rewrite Hg, IH.
Qed.

(** What an [UPDATE] of an authenticated client comes to. *)
Lemma update_authenticated p f rows :
  update Sec "authenticated" p f rows
  = let rows' := (fun r => if p r then f r else r) <$> rows in
    if bool_decide (NoDup (row_id <$> rows')) then inr rows' else inl UniqueViolation.
Proof.
  unfold update. cbv zeta.
  rewrite forallb_all
    by (intros r; rewrite admit_update; apply orb_true_r).
  rewrite (fmap_pointwise _ (fun r => if p r then f r else r))
    by (intros r; by rewrite targets_update_authenticated).
  reflexivity.
Qed.


Lemma insert_refused role r rows : insert_row Sec role r rows = inl RlsViolation.
Proof. reflexivity. Qed.

Lemma delete_nothing role p rows : delete_rows Sec role p rows = inr rows.
Proof.
  unfold delete_rows. f_equal. apply filter_all.
  intros r. by rewrite targets_delete.
Qed.




(** X10: an [UPDATE] under [authenticated] that leaves the ids alone
    succeeds on every table with unique ids; the table it leaves holds,
    up to the order of its rows, the old rows with exactly those its
    [WHERE] accepts rewritten, and its ids are the old ids. *)
Theorem authenticated_update p f rows :
  NoDup (row_id <$> rows) ->
  (forall r, row_id (f r) = row_id r) ->
  exists rows',
    update Sec "authenticated" p f rows = inr rows'
    /\ rows' ≡ₚ ((fun r => if p r then f r else r) <$> rows)
    /\ (forall r', r' ∈ rows' <-> exists r, r ∈ rows /\ r' = if p r then f r else r)
    /\ (row_id <$> rows') ≡ₚ (row_id <$> rows).
Proof.
  intros Hkey Hid.
  assert (Hids : row_id <$> ((fun r => if p r then f r else r) <$> rows)
                 = row_id <$> rows).
  { rewrite <- list_fmap_compose. apply fmap_pointwise.
    intros r. cbn. by destruct (p r). }
  exists ((fun r => if p r then f r else r) <$> rows).
  split; [|split; [done|split]].
  - rewrite update_authenticated. cbv zeta. rewrite Hids.
    by rewrite bool_decide_eq_true_2.
  - intros r'. rewrite list_elem_of_fmap. split.
    + intros (r & -> & Hr). by exists r.
    + intros (r & Hr & ->). by exists r.
  - by rewrite Hids.
Qed.

Lemma table_after_length rows (req : string * Statement Json) :
  length (table_after Sec rows req) = length rows.
Proof.
  destruct req as [role stmt]. unfold table_after. cbn [fst snd].
  destruct stmt as [r|p f|p]; cbn [execute].
  - by rewrite insert_refused.
  - unfold update. cbv zeta. repeat case_match; try done.
    simplify_eq. by rewrite length_fmap.
  - by rewrite delete_nothing.
Qed.

(** X11: the policies let no client they bind add or remove a row: after
    any statements, under any such roles, the table has as many rows as
    before.  (The ids are not fixed by this: see [rekey_keeps_count].) *)
Theorem row_count_invariant rows (reqs : list (string * Statement Json)) :
  length (serve Sec rows reqs) = length rows.
Proof.
  revert rows. induction reqs as [|req reqs IH]; intros rows; [done|].
  unfold serve in *. cbn [foldl]. by rewrite IH, table_after_length.
Qed.

Lemma select_readable role p rows :
  role ∈ ["anon"; "authenticated"] -> select Sec role p rows = List.filter p rows.
Proof.
  intros Hrole. unfold select. apply List.filter_ext. intros r.
  rewrite reach_select. by rewrite bool_decide_eq_true_2.
Qed.

Lemma saved_absent k c now rows :
  k ∉ (row_id <$> rows) ->
  (fun r => if has_id k r then with_content c now r else r) <$> rows = rows.
Proof.
  induction rows as [|r rows IH]; intros Hk; [done|].
  cbn [fmap list_fmap] in *. apply not_elem_of_cons in Hk as [Hr Hk].
  unfold has_id at 1. rewrite bool_decide_eq_false_2 by done.
  f_equal. by apply IH.
Qed.

Lemma filter_has_id_absent k rows :
  k ∉ (row_id <$> rows) -> List.filter (has_id k) rows = [].
Proof.
  induction rows as [|r rows IH]; intros Hk; [done|].
  cbn [fmap list_fmap] in *. apply not_elem_of_cons in Hk as [Hr Hk].
  cbn [List.filter]. unfold has_id at 1.
  rewrite bool_decide_eq_false_2 by done. by apply IH.
Qed.

Lemma saved_row_read k c now rows :
  NoDup (row_id <$> rows) -> k ∈ (row_id <$> rows) ->
  content <$> List.filter (has_id k)
    ((fun r => if has_id k r then with_content c now r else r) <$> rows) = [c].
Proof.
  induction rows as [|r rows IH]; intros Hkey Hk.
  - by apply elem_of_nil in Hk.
  - cbn [fmap list_fmap] in *. apply NoDup_cons in Hkey as [Hr Hkey].
    destruct (decide (row_id r = k)) as [Hrk|Hrk].
    + unfold has_id at 2. rewrite bool_decide_eq_true_2 by done.
      cbn [List.filter]. unfold has_id at 1.
      rewrite bool_decide_eq_true_2 by done.
      rewrite saved_absent by (by rewrite <- Hrk).
      rewrite filter_has_id_absent by (by rewrite <- Hrk).
      reflexivity.
    + unfold has_id at 2. rewrite bool_decide_eq_false_2 by done.
      cbn [List.filter]. unfold has_id at 1.
      rewrite bool_decide_eq_false_2 by done.
      apply IH; [done|]. apply elem_of_cons in Hk as [Hk|Hk]; [done|exact Hk].
Qed.

Lemma saved_others_kept k k' c now rows :
  k' <> k ->
  List.filter (has_id k')
    ((fun r => if has_id k r then with_content c now r else r) <$> rows)
  = List.filter (has_id k') rows.
Proof.
  intros Hk'. induction rows as [|r rows IH]; [done|].
  cbn [fmap list_fmap List.filter]. rewrite IH.
  destruct (decide (row_id r = k)) as [Hrk|Hrk].
  - assert (has_id k r = true) as -> by (by apply bool_decide_eq_true_2).
    assert (has_id k' (with_content c now r) = false) as ->
      by (apply bool_decide_eq_false_2; cbn; congruence).
    assert (has_id k' r = false) as ->
      by (apply bool_decide_eq_false_2; congruence).
    reflexivity.
  - assert (has_id k r = false) as -> by (by apply bool_decide_eq_false_2).
    reflexivity.
Qed.

(** X12: what an administrator saves is what everybody reads: on a table
    with unique ids that has a row for [k], the [UPDATE] that sets the
    content of [k] under [authenticated] succeeds, and a later [SELECT]
    of [k], by an anonymous visitor as well, returns that content and
    nothing else, while a [SELECT] of any other id returns what it
    returned before. *)
Theorem saved_content_is_read role k c now rows :
  NoDup (row_id <$> rows) ->
  k ∈ (row_id <$> rows) ->
  role ∈ ["anon"; "authenticated"] ->
  exists rows',
    update Sec "authenticated" (has_id k) (with_content c now) rows = inr rows'
    /\ content <$> select Sec role (has_id k) rows' = [c]
    /\ forall k', k' <> k ->
         select Sec role (has_id k') rows' = select Sec role (has_id k') rows.
Proof.
  intros Hkey Hk Hrole.
  exists ((fun r => if has_id k r then with_content c now r else r) <$> rows).
  split; [|split].
  - rewrite update_authenticated. cbv zeta.
    rewrite bool_decide_eq_true_2; [done|].
    rewrite <- list_fmap_compose.
    rewrite (fmap_pointwise _ row_id); [done|].
    intros r. cbn. by destruct (has_id k r).
  - rewrite select_readable by done. by apply saved_row_read.
  - intros k' Hk'. rewrite !select_readable by done. by apply saved_others_kept.
Qed.

(** X13: saving a region that has no row yet stores nothing and is
    answered as a success: the [UPDATE] of an id that is not in the table
    leaves the table as it is, also under [authenticated]. *)
Theorem save_of_missing_id_is_lost k c now rows :
  NoDup (row_id <$> rows) ->
  k ∉ (row_id <$> rows) ->
  update Sec "authenticated" (has_id k) (with_content c now) rows = inr rows
  /\ select Sec "authenticated" (has_id k) rows = [].
Proof.
  intros Hkey Hk. split.
  - rewrite update_authenticated. cbv zeta. rewrite saved_absent by done.
    by rewrite bool_decide_eq_true_2.
  - rewrite select_readable
      by (apply elem_of_cons; right; by apply list_elem_of_singleton).
    by apply filter_has_id_absent.
Qed.

End PolicyFacts.

(** * The further theorems at concrete inputs *)

Lemma site_rows_key : NoDup (row_id <$> site_rows).
Proof. refine (bool_decide_unpack _ _). vm_compute. exact I. Qed.

Lemma user_follows_last_auth_witness :
  let ev : Event string := notification None in
  let evs2 : list (Event string) := [ClickEditToggle; ClickEditToggle] in
  is_auth ev = true
  /\ forallb (fun ev' => negb (is_auth ev')) evs2 = true
  /\ user (exec RNull initial
             ([notification (Some admin_session); ClickEditToggle] ++ ev :: evs2))
     = None.
Proof.
  cbv zeta. split; [reflexivity|]. split; [reflexivity|].
  exact (user_follows_last_auth (User := string) RNull initial initial
           [notification (Some admin_session); ClickEditToggle]
           (notification None) [ClickEditToggle; ClickEditToggle]
           eq_refl eq_refl).
Defined.

Lemma toggle_parity_witness :
  let st : CMSState string := {| user := Some "admin"; isEditMode := false |} in
  is_Some (user st)
  /\ exec RNull st (replicate 3 ClickEditToggle)
     = {| user := Some "admin"; isEditMode := true |}.
Proof.
  cbv zeta. split; [by eexists|].
  exact (toggle_parity (User := string) RNull 3
           {| user := Some "admin"; isEditMode := false |}
           (ex_intro _ "admin" eq_refl)).
Defined.

Lemma provider_offers_login_or_toggle_witness :
  let st : CMSState string := {| user := Some "admin"; isEditMode := false |} in
  occurs "AdminLoginButton" static_title = false
  /\ occurs "EditToggle" static_title = false
  /\ occurs "EditToggle" (CMSProvider st static_title) = true
  /\ occurs "AdminLoginButton" (CMSProvider st static_title) = false.
Proof.
  cbv zeta.
  assert (Hlogin : occurs "AdminLoginButton" static_title = false)
    by (vm_compute; reflexivity).
  assert (Htoggle : occurs "EditToggle" static_title = false)
    by (vm_compute; reflexivity).
  split; [exact Hlogin|]. split; [exact Htoggle|].
  destruct (provider_offers_login_or_toggle (User := string)
              {| user := Some "admin"; isEditMode := false |} static_title
              Hlogin Htoggle) as (H1 & H2 & _).
  split; [exact H1 | exact H2].
Defined.

Lemma Editable_inj_witness :
  Editable "home-title" static_title = Editable "home-title" static_title
  /\ "home-title" = "home-title" /\ static_title = static_title.
Proof.
  split; [reflexivity|].
  exact (Editable_inj (User := string) "home-title" "home-title"
           static_title static_title eq_refl).
Defined.





Lemma authenticated_update_witness :
  NoDup (row_id <$> site_rows)
  /\ (forall r : Row string, row_id (with_content "New Title" 2%N r) = row_id r)
  /\ exists rows',
       update site_content_security "authenticated" (has_id "home-title")
         (with_content "New Title" 2%N) site_rows = inr rows'
       /\ rows' ≡ₚ ((fun r => if has_id "home-title" r
                              then with_content "New Title" 2%N r else r) <$> site_rows).
Proof.
  split; [exact site_rows_key|]. split; [reflexivity|].
  destruct (authenticated_update (Json := string) (has_id "home-title")
              (with_content "New Title" 2%N) site_rows site_rows_key
              (fun r => eq_refl)) as (rows' & Hupdate & Hperm & _).
  exists rows'. split; [exact Hupdate | exact Hperm].
Defined.

Lemma saved_content_is_read_witness :
  NoDup (row_id <$> site_rows)
  /\ "home-title" ∈ (row_id <$> site_rows)
  /\ "anon" ∈ ["anon"; "authenticated"]
  /\ exists rows',
       update site_content_security "authenticated" (has_id "home-title")
         (with_content "New Title" 2%N) site_rows = inr rows'
       /\ content <$> select site_content_security "anon" (has_id "home-title") rows'
          = ["New Title"].
Proof.
  assert (Hk : "home-title" ∈ (row_id <$> site_rows)) by (apply elem_of_cons; by left).
  assert (Hrole : "anon" ∈ ["anon"; "authenticated"]) by (apply elem_of_cons; by left).
  split; [exact site_rows_key|]. split; [exact Hk|]. split; [exact Hrole|].
  destruct (saved_content_is_read (Json := string) "anon" "home-title" "New Title" 2%N
              site_rows site_rows_key Hk Hrole) as (rows' & Hupdate & Hread & _).
  exists rows'. split; [exact Hupdate | exact Hread].
Defined.

Lemma save_of_missing_id_is_lost_witness :
  NoDup (row_id <$> site_rows)
  /\ ("about" ∉ (row_id <$> site_rows))
  /\ update site_content_security "authenticated" (has_id "about")
       (with_content "About us" 2%N) site_rows = inr site_rows.
Proof.
  assert (Hk : "about" ∉ (row_id <$> site_rows))
    by (refine (bool_decide_unpack _ _); vm_compute; exact I).
  split; [exact site_rows_key|]. split; [exact Hk|].
  exact (proj1 (save_of_missing_id_is_lost (Json := string) "about" "About us" 2%N
                  site_rows site_rows_key Hk)).
Defined.

(** An authenticated [UPDATE] may give an existing row another id: the row
    count stays, and the content is then read under an id that had no
    row. *)
Example rekey_keeps_count :
  let rekey (r : Row string) : Row string :=
    {| row_id := "about"; content := "About us"; last_updated := 2%N |} in
  let rows' := serve site_content_security site_rows
                 [("authenticated", Update (has_id "home-title") rekey)] in
  length rows' = length site_rows
  /\ select site_content_security "anon" (has_id "about") site_rows = []
  /\ content <$> select site_content_security "anon" (has_id "about") rows'
     = ["About us"].
Proof. vm_compute. repeat split. Qed.
